(** * The wallet-session and contract-interaction component of [src/App.js]

    The React component [App] keeps five pieces of state ([web3auth],
    [provider], [contract], [message], [newMessage]) and exposes one
    asynchronous handler per button.  Every non-trivial step is a call into
    an SDK (Web3Auth, ethers); the handlers only guard on a handle being
    present, await the SDK and store the answer.

    The embedding keeps that shape:
    - the component state is a record, the handlers read the values their
      closure captured at render time and write through the [set...]
      updaters;
    - an awaited SDK call either fulfils or rejects; which of the two is
      decided by the environment [Env], the call itself is appended to a
      trace so that "nothing was sent" is a statement about the trace;
    - [try]/[catch] keeps the state updates made before the throw;
    - the chain is a finite map from contract addresses to the single
      string the deployed contract stores.

    Assumptions of the model: handlers run one at a time, each to the end
    of its promise, with a render in between; a thrown value is an [Error]
    with a string message; a transaction takes effect when the await on its
    confirmation ([waitForDeployment], [tx.wait]) fulfils and not
    otherwise; nobody else sends transactions to the contracts of this
    component. *)

From stdpp Require Import base option list strings gmap relations.

Local Open Scope string_scope.
Local Open Scope list_scope.

(** ** Static configuration *)

Record ChainConfig := {
  chainNamespace : string;
  chainId : string;
  rpcTarget : string;
  displayName : string;
  blockExplorerUrl : string;
  ticker : string;
  tickerName : string;
}.

Definition clientId : string := "ID from Web3Auth Dashboard".

Definition chainConfig : ChainConfig := {|
  chainNamespace := "eip155";
  chainId := "0x14A34";
  rpcTarget := "https://sepolia.base.org";
  displayName := "Base Sepolia";
  blockExplorerUrl := "https://sepolia-explorer.base.org";
  ticker := "ETH";
  tickerName := "ETH";
|}.

(** The three entries of [contractABI]. *)
Inductive AbiEntry :=
  | AbiConstructor (input : string)
  | AbiView (name : string)
  | AbiNonpayable (name input : string).

Definition contractABI : list AbiEntry :=
  [ AbiConstructor "initMessage"; AbiView "message"; AbiNonpayable "update" "newMessage" ].

(** ** Handles *)

Record LoginConfig := {
  verifier : string;
  typeOfLogin : string;
  loginClientId : string;
}.

Record OpenloginAdapter := {
  adapterClientId : string;
  uxMode : string;
  loginConfig : list (string * LoginConfig);
  privateKeyProvider : ChainConfig;
}.

(** Session: the auth client built by the start-up effect. *)
Record Web3AuthNoModal := {
  w3aClientId : string;
  w3aChainConfig : ChainConfig;
  web3AuthNetwork : string;
  adapters : list OpenloginAdapter;
}.

(** ConnectedProvider: [new ethers.BrowserProvider(web3authProvider)]. *)
Record BrowserProvider := { eip1193 : N }.

Record Signer := { signerProvider : BrowserProvider }.

(** A transaction sent to the chain: the creation of the contract, which
    will live at [addr] and whose constructor gets [initMessage], or a call
    of [update(newMessage)] on the contract at [addr]. *)
Inductive TransactionResponse :=
  | creation (addr : N) (initMessage : string)
  | update_call (addr : N) (newMessage : string).

(** DeployedContract: an address on the chain, bound to the signer that
    deployed it, together with the creation transaction. *)
Record Contract := {
  target : N;
  runner : Signer;
  deploymentTransaction : TransactionResponse;
}.

Record UserInfo := { profile : list (string * string) }.

(** ** Component state: the five [useState] cells *)

Record AppState := {
  web3auth : option Web3AuthNoModal;
  provider : option BrowserProvider;
  contract : option Contract;
  message : string;
  newMessage : string;
}.

(** [useState(null)] three times, [useState("")] twice. *)
Definition initialState : AppState := {|
  web3auth := None; provider := None; contract := None;
  message := ""; newMessage := "";
|}.

(** ** The world outside the component *)

(** Every call into an SDK that the handlers make. *)
Inductive Call :=
  | new_Web3AuthNoModal (cid network : string)
  | new_EthereumPrivateKeyProvider
  | new_OpenloginAdapter
  | web3auth_configureAdapter
  | web3auth_init
  | web3auth_connectTo (adapter loginProvider domain verifierIdField : string)
  | web3auth_getUserInfo
  | web3auth_logout
  | provider_getSigner (p : BrowserProvider)
  | new_ContractFactory
  | factory_deploy (initMessage : string)
  | contract_waitForDeployment (addr : N)
  | contract_getAddress (addr : N)
  | contract_message (addr : N)
  | contract_update (addr : N) (arg : string)
  | tx_wait (tx : TransactionResponse)
  | signer_getAddress (s : Signer)
  | provider_getNetwork (p : BrowserProvider)
  | provider_getBalance (p : BrowserProvider) (address : string).

(** What is handed to [console.log] / [console.error]. *)
Inductive Value :=
  | VStr (s : string)
  | VBigInt (n : N)
  | VAddress (a : N)
  | VUser (u : UserInfo)
  | VError (msg : string).

Inductive LogEntry :=
  | console_log_entry (args : list Value)
  | console_error_entry (args : list Value).

Record World := {
  chain : gmap N string;     (* contract address -> stored string *)
  calls : list Call;         (* SDK calls made so far, oldest first *)
  console : list LogEntry;   (* console output so far, oldest first *)
}.

(** What the environment answers while one handler runs. *)
Record Env := {
  rejects : Call → option string;  (* [Some msg]: the promise rejects with [Error(msg)] *)
  web3authProvider : N;            (* handle returned by [connectTo] *)
  user : UserInfo;                 (* answer of [getUserInfo] *)
  address : string;                (* answer of [signer.getAddress] *)
  networkName : string;
  networkChainId : N;
  balance : N;
  formatEther : N → string;        (* [ethers.formatEther] *)
}.

(** ** Asynchronous computations *)

Inductive Settled (A : Type) :=
  | Fulfilled (a : A)
  | Rejected (msg : string).
Arguments Fulfilled {A} a.
Arguments Rejected {A} msg.

Definition Config : Type := AppState * World.

Definition Async (A : Type) : Type := Config → Settled A * Config.

#[global] Instance Async_ret : MRet Async := λ A a σ, (Fulfilled a, σ).

#[global] Instance Async_bind : MBind Async := λ A B k m σ,
  match m σ with
  | (Fulfilled a, σ') => k a σ'
  | (Rejected msg, σ') => (Rejected msg, σ')
  end.

(** [try { body } catch (error) { handler(error.message) }] *)
Definition try_catch {A} (body : Async A) (handler : string → Async A) : Async A :=
  λ σ, match body σ with
       | (Fulfilled a, σ') => (Fulfilled a, σ')
       | (Rejected msg, σ') => handler msg σ'
       end.

Definition modifyState (f : AppState → AppState) : Async unit :=
  λ σ, (Fulfilled (), (f σ.1, σ.2)).

Definition modifyWorld (f : World → World) : Async unit :=
  λ σ, (Fulfilled (), (σ.1, f σ.2)).

Definition getWorld : Async World := λ σ, (Fulfilled σ.2, σ).

Definition setWeb3auth (v : option Web3AuthNoModal) : Async unit :=
  modifyState (λ st, {| web3auth := v; provider := provider st; contract := contract st;
                        message := message st; newMessage := newMessage st |}).

Definition setProvider (v : option BrowserProvider) : Async unit :=
  modifyState (λ st, {| web3auth := web3auth st; provider := v; contract := contract st;
                        message := message st; newMessage := newMessage st |}).

Definition setContract (v : option Contract) : Async unit :=
  modifyState (λ st, {| web3auth := web3auth st; provider := provider st; contract := v;
                        message := message st; newMessage := newMessage st |}).

Definition setMessage (v : string) : Async unit :=
  modifyState (λ st, {| web3auth := web3auth st; provider := provider st; contract := contract st;
                        message := v; newMessage := newMessage st |}).

Definition setNewMessage (v : string) : Async unit :=
  modifyState (λ st, {| web3auth := web3auth st; provider := provider st; contract := contract st;
                        message := message st; newMessage := v |}).

Definition console_log (args : list Value) : Async unit :=
  modifyWorld (λ w, {| chain := chain w; calls := calls w;
                       console := console w ++ [console_log_entry args] |}).

Definition console_error (args : list Value) : Async unit :=
  modifyWorld (λ w, {| chain := chain w; calls := calls w;
                       console := console w ++ [console_error_entry args] |}).

(** A mined transaction.  Both the constructor and [update] of the
    deployed bytecode store their argument in slot 0, which [message] reads
    back; a call to an address without code changes nothing. *)
Definition execute (tx : TransactionResponse) (chain : gmap N string) : gmap N string :=
  match tx with
  | creation addr initMessage => <[addr := initMessage]> chain
  | update_call addr newMessage => alter (λ _, newMessage) addr chain
  end.

Definition mine (tx : TransactionResponse) : Async unit :=
  modifyWorld (λ w, {| chain := execute tx (chain w); calls := calls w;
                       console := console w |}).

Definition throw {A} (msg : string) : Async A := λ σ, (Rejected msg, σ).

Section handlers.
Variable env : Env.

(** An SDK call: it is recorded, then it settles as the environment says. *)
Definition sdk (c : Call) : Async unit :=
  λ σ, let σ' := (σ.1, {| chain := chain σ.2; calls := calls σ.2 ++ [c];
                          console := console σ.2 |}) in
       match rejects env c with
       | Some msg => (Rejected msg, σ')
       | None => (Fulfilled (), σ')
       end.

(** *** SDK wrappers *)

Definition connectTo (adapter loginProvider domain verifierIdField : string) : Async N :=
  sdk (web3auth_connectTo adapter loginProvider domain verifierIdField);;
  mret (web3authProvider env).

Definition web3auth_getUserInfo_call : Async UserInfo :=
  sdk web3auth_getUserInfo;; mret (user env).

Definition getSigner (p : BrowserProvider) : Async Signer :=
  sdk (provider_getSigner p);; mret {| signerProvider := p |}.

Definition ContractFactory (s : Signer) : Async Signer :=
  sdk new_ContractFactory;; mret s.

(** [factory.deploy(arg)] sends the creation transaction and answers with
    a contract object at the address the chain will give it. *)
Definition deploy (s : Signer) (arg : string) : Async Contract :=
  sdk (factory_deploy arg);;
  w ← getWorld;
  let addr := fresh (dom (chain w)) in
  mret {| target := addr; runner := s;
          deploymentTransaction := creation addr arg |}.

(** [contract.waitForDeployment()] fulfils once the creation transaction
    is mined: the constructor has stored its argument. *)
Definition waitForDeployment (c : Contract) : Async unit :=
  sdk (contract_waitForDeployment (target c));; mine (deploymentTransaction c).

Definition getAddress (c : Contract) : Async N :=
  sdk (contract_getAddress (target c));; mret (target c).

(** [contract.message()]: the view function returns the stored string;
    where no code is deployed the empty answer cannot be decoded. *)
Definition contract_message_call (c : Contract) : Async string :=
  sdk (contract_message (target c));;
  w ← getWorld;
  match chain w !! target c with
  | Some s => mret s
  | None => throw "could not decode result data"
  end.

(** [contract.update(arg)] sends the transaction. *)
Definition update (c : Contract) (arg : string) : Async TransactionResponse :=
  sdk (contract_update (target c) arg);;
  mret (update_call (target c) arg).

(** [tx.wait()] fulfils once the transaction is mined. *)
Definition wait (tx : TransactionResponse) : Async unit :=
  sdk (tx_wait tx);; mine tx.

Definition signer_getAddress_call (s : Signer) : Async string :=
  sdk (signer_getAddress s);; mret (address env).

Definition getNetwork (p : BrowserProvider) : Async (string * N) :=
  sdk (provider_getNetwork p);; mret (networkName env, networkChainId env).

Definition getBalance (p : BrowserProvider) (a : string) : Async N :=
  sdk (provider_getBalance p a);; mret (balance env).

(** *** The start-up effect *)

Definition init : Async unit :=
  try_catch
    (sdk (new_Web3AuthNoModal clientId "sapphire_devnet");;
     sdk new_EthereumPrivateKeyProvider;;
     sdk new_OpenloginAdapter;;
     sdk web3auth_configureAdapter;;
     let openloginAdapter := {|
       adapterClientId := clientId; uxMode := "popup";
       loginConfig := [("jwt", {| verifier := "app-test"; typeOfLogin := "jwt";
                                  loginClientId := "YOUR_AUTH0_CLIENT_ID" |})];
       privateKeyProvider := chainConfig |} in
     setWeb3auth (Some {| w3aClientId := clientId; w3aChainConfig := chainConfig;
                          web3AuthNetwork := "sapphire_devnet";
                          adapters := [openloginAdapter] |});;
     sdk web3auth_init)
    (λ error, console_error [VError error]).

(** *** The handlers.  The argument [st] is the state the closure sees. *)

Definition login (st : AppState) : Async unit :=
  match web3auth st with
  | None => console_log [VStr "web3auth not initialized yet"]
  | Some _ =>
      web3authProvider ← connectTo "openlogin" "jwt" "https://Your-Auth0-domain-url" "sub";
      setProvider (Some {| eip1193 := web3authProvider |})
  end.

Definition getUserInfo (st : AppState) : Async unit :=
  match web3auth st with
  | None => console_log [VStr "web3auth not initialized yet"]
  | Some _ =>
      user ← web3auth_getUserInfo_call;
      console_log [VUser user]
  end.

Definition logout (st : AppState) : Async unit :=
  match web3auth st with
  | None => console_log [VStr "web3auth not initialized yet"]
  | Some _ =>
      sdk web3auth_logout;;
      setProvider None
  end.

(** [error.message.includes("insufficient funds")] *)
Definition includes (s sub : string) : bool :=
  bool_decide (is_Some (String.index 0 sub s)).

Definition deployContract (st : AppState) : Async unit :=
  match provider st with
  | None => console_log [VStr "provider not initialized yet"]
  | Some p =>
      try_catch
        (signer ← getSigner p;
         factory ← ContractFactory signer;
         contract ← deploy factory "Hello World!";
         waitForDeployment contract;;
         setContract (Some contract);;
         addr ← getAddress contract;
         console_log [VStr "Contract deployed to:"; VAddress addr])
        (λ error,
           console_error [VStr "Error deploying contract:"; VStr error];;
           if includes error "insufficient funds"
           then console_log [VStr "Please make sure you have enough test ETH in your wallet."]
           else mret ())
  end.

Definition readContract (st : AppState) : Async unit :=
  match contract st with
  | None => console_log [VStr "Contract not deployed yet"]
  | Some c =>
      message ← contract_message_call c;
      setMessage message
  end.

Definition writeContract (st : AppState) : Async unit :=
  match contract st with
  | None => console_log [VStr "Contract not deployed yet"]
  | Some c =>
      tx ← update c (newMessage st);
      wait tx;;
      console_log [VStr "Message updated"];;
      setNewMessage ""
  end.

Definition checkBalance (st : AppState) : Async unit :=
  match provider st with
  | None => console_log [VStr "Provider not initialized yet"]
  | Some p =>
      try_catch
        (signer ← getSigner p;
         address ← signer_getAddress_call signer;
         console_log [VStr "Wallet address:"; VStr address];;
         network ← getNetwork p;
         console_log [VStr "Connected to network:"; VStr network.1;
                      VStr "Chain ID:"; VBigInt network.2];;
         balance ← getBalance p address;
         console_log [VStr "Balance:"; VStr (formatEther env balance); VStr "ETH"])
        (λ error, console_error [VStr "Error checking balance:"; VError error])
  end.

(** [onChange={(e) => setNewMessage(e.target.value)}] *)
Definition onChange (value : string) (st : AppState) : Async unit :=
  setNewMessage value.

(** Run a handler on the state it was rendered with. *)
Definition run (h : AppState → Async unit) (σ : Config) : Settled unit * Config :=
  h σ.1 σ.

End handlers.

(** ** The component as a transition system *)

Inductive Event :=
  | Click_login
  | Click_getUserInfo
  | Click_logout
  | Click_deployContract
  | Click_checkBalance
  | Click_readContract
  | Click_writeContract
  | Change (value : string).

#[global] Instance Event_eq_dec : EqDecision Event.
Proof. solve_decision. Defined.

Definition handler (env : Env) (ev : Event) : AppState → Async unit :=
  match ev with
  | Click_login => login env
  | Click_getUserInfo => getUserInfo env
  | Click_logout => logout env
  | Click_deployContract => deployContract env
  | Click_checkBalance => checkBalance env
  | Click_readContract => readContract env
  | Click_writeContract => writeContract env
  | Change value => onChange value
  end.

(** The configuration once the promise of the handler has settled; a
    rejection nobody catches is dropped. *)
Definition handle (env : Env) (ev : Event) (σ : Config) : Config :=
  (run (handler env ev) σ).2.

(** The controls the JSX renders for a given state. *)
Definition rendered (st : AppState) (ev : Event) : bool :=
  match provider st with
  | None => match ev with Click_login => true | _ => false end
  | Some _ =>
      match ev with
      | Click_login => false
      | Click_getUserInfo | Click_logout | Click_deployContract | Click_checkBalance => true
      | Click_readContract | Click_writeContract | Change _ =>
          bool_decide (is_Some (contract st))
      end
  end.

Inductive step : Config → Config → Prop :=
  | step_event env ev σ : rendered σ.1 ev = true → step σ (handle env ev σ).

(** The configuration after mounting: the effect has run once. *)
Definition mount (env : Env) (w : World) : Config := (init env (initialState, w)).2.

Definition reachable (σ : Config) : Prop :=
  ∃ env w, rtc step (mount env w) σ.

(** A sequence of handler invocations, each with its own environment. *)
Definition handleAll (evs : list (Env * Event)) (σ : Config) : Config :=
  foldl (λ σ ev, handle ev.1 ev.2 σ) σ evs.

(** The world after one more line of console output and nothing else. *)
Definition logged (w : World) (e : LogEntry) : World :=
  {| chain := chain w; calls := calls w; console := console w ++ [e] |}.

(** The deployment proper: the steps of [deployContract] up to the
    confirmation on the chain. *)
Definition deployment (env : Env) (p : BrowserProvider) : Async Contract :=
  signer ← getSigner env p;
  factory ← ContractFactory env signer;
  contract ← deploy env factory "Hello World!";
  waitForDeployment env contract;;
  mret contract.

(** ** Properties of configurations *)

(** A connected provider only with a session. *)
Definition providerNeedsSession (st : AppState) : Prop :=
  is_Some (provider st) → is_Some (web3auth st).

(** A deployed contract only with a connected provider. *)
Definition contractNeedsProvider (st : AppState) : Prop :=
  is_Some (contract st) → is_Some (provider st).

(** A deployed contract only with a session. *)
Definition contractNeedsSession (st : AppState) : Prop :=
  is_Some (contract st) → is_Some (web3auth st).

(** The invariant of the data model. *)
Definition handlesInv (st : AppState) : Prop :=
  providerNeedsSession st ∧ contractNeedsProvider st.

(** What the handlers keep of it. *)
Definition sessionInv (st : AppState) : Prop :=
  providerNeedsSession st ∧ contractNeedsSession st.

(** The component stores a contract, and what the chain holds at its
    address, if anything, is [X]. *)
Definition contractStores (X : string) (σ : Config) : Prop :=
  ∃ c, contract σ.1 = Some c ∧ ∀ v, chain σ.2 !! target c = Some v → v = X.


(** ** Sample environments and configurations *)

(** An environment in which every call fulfils. *)
Definition calm : Env := {|
  rejects := λ _, None;
  web3authProvider := 1%N;
  user := {| profile := [("name", "alice")] |};
  address := "0xA11CE";
  networkName := "base-sepolia";
  networkChainId := 84532%N;
  balance := 0%N;
  formatEther := λ _, "0.0";
|}.

Definition emptyWorld : World := {| chain := ∅; calls := []; console := [] |}.

(** An environment whose wallet cannot pay for the deployment. *)
Definition broke : Env := {|
  rejects := λ c, match c with
                  | factory_deploy _ => Some "insufficient funds for intrinsic transaction cost"
                  | _ => None
                  end;
  web3authProvider := 1%N;
  user := {| profile := [] |};
  address := "0xB0B";
  networkName := "base-sepolia";
  networkChainId := 84532%N;
  balance := 0%N;
  formatEther := λ _, "0.0";
|}.

(** The three configurations the happy path goes through. *)
Definition readyConfig : Config := mount calm emptyWorld.
Definition connectedConfig : Config := handle calm Click_login readyConfig.
Definition deployedConfig : Config := handle calm Click_deployContract connectedConfig.

(** A state in which the user typed before anything was deployed. *)
Definition typedEarly : AppState := {|
  web3auth := None; provider := None; contract := None;
  message := "shown"; newMessage := "typed";
|}.

(** The user types "gm" once the contract is deployed. *)
Definition typedConfig : Config := handle calm (Change "gm") deployedConfig.

Definition firstContract : Contract := {|
  target := 0;
  runner := {| signerProvider := {| eip1193 := 1 |} |};
  deploymentTransaction := creation 0 "Hello World!";
|}.

(** ** Further notions for the start-up effect, the guards and the trace *)

(** The synchronous part of the start-up effect that comes before
    [setWeb3auth]: the three constructors and [configureAdapter]. *)
Definition construction (env : Env) : Async unit :=
  sdk env (new_Web3AuthNoModal clientId "sapphire_devnet");;
  sdk env new_EthereumPrivateKeyProvider;;
  sdk env new_OpenloginAdapter;;
  sdk env web3auth_configureAdapter.

(** The handle each handler tests first: [!web3auth], [!provider] or
    [!contract]; the input's [onChange] tests nothing. *)
Definition guardPasses (st : AppState) (ev : Event) : bool :=
  match ev with
  | Click_login | Click_getUserInfo | Click_logout => bool_decide (is_Some (web3auth st))
  | Click_deployContract | Click_checkBalance => bool_decide (is_Some (provider st))
  | Click_readContract | Click_writeContract => bool_decide (is_Some (contract st))
  | Change _ => true
  end.

(** Does the call send a transaction to the chain? *)
Definition isTransaction (c : Call) : bool :=
  match c with
  | factory_deploy _ | contract_update _ _ => true
  | _ => false
  end.

Definition isLog (e : LogEntry) : bool :=
  match e with console_log_entry _ => true | console_error_entry _ => false end.

(** The stored contract, if any, has code on the chain. *)
Definition contractHasCode (σ : Config) : Prop :=
  ∀ c, contract σ.1 = Some c → is_Some (chain σ.2 !! target c).

(** [sub] occurs in [s]. *)
Definition occursIn (sub s : string) : Prop :=
  ∃ pre post, s = (pre +:+ sub +:+ post)%string.

(** An environment in which exactly the calls selected by [P] reject. *)
Definition rejecting (P : Call → bool) (msg : string) : Env := {|
  rejects := λ c, if P c then Some msg else None;
  web3authProvider := 2%N;
  user := {| profile := [("name", "bob")] |};
  address := "0xB0B";
  networkName := "base-sepolia";
  networkChainId := 84532%N;
  balance := 5%N;
  formatEther := λ _, "0.000000000000000005";
|}.

Definition is_web3auth_init (c : Call) : bool :=
  match c with web3auth_init => true | _ => false end.

Definition is_new_OpenloginAdapter (c : Call) : bool :=
  match c with new_OpenloginAdapter => true | _ => false end.

Definition is_getAddress (c : Call) : bool :=
  match c with contract_getAddress _ => true | _ => false end.


Definition is_tx_wait (c : Call) : bool :=
  match c with tx_wait _ => true | _ => false end.


(** ** Proof support *)

Ltac unfold_sdk :=
  unfold connectTo, web3auth_getUserInfo_call, getSigner, ContractFactory, deploy, waitForDeployment,
    getAddress, contract_message_call, update, wait, signer_getAddress_call,
    getNetwork, getBalance, sdk, mine, throw, console_log, console_error,
    setWeb3auth, setProvider, setContract, setMessage, setNewMessage,
    modifyState, modifyWorld, getWorld in *.

Ltac unfold_handlers :=
  unfold handle, run, handler, login, getUserInfo, logout, deployContract,
    readContract, writeContract, checkBalance, onChange, deployment, init,
    try_catch in *.

(** Run a handler symbolically, splitting on every answer of the
    environment that the run consults. *)
Ltac ask_env :=
  match goal with
  | |- context [rejects ?e ?c] =>
      lazymatch goal with
      | H : rejects e c = _ |- _ => rewrite H
      | _ => destruct (rejects e c) eqn:?
      end
  | H : context [rejects ?e ?c] |- _ =>
      lazymatch goal with
      | H' : rejects e c = _ |- _ => rewrite H' in H
      | _ => destruct (rejects e c) eqn:?
      end
  | |- context [match chain ?w !! ?a with _ => _ end] =>
      lazymatch goal with
      | H : chain w !! a = _ |- _ => rewrite H
      | _ => destruct (chain w !! a) eqn:?
      end
  | H : context [match chain ?w !! ?a with _ => _ end] |- _ =>
      lazymatch goal with
      | H' : chain w !! a = _ |- _ => rewrite H' in H
      | _ => destruct (chain w !! a) eqn:?
      end
  | |- context [if includes ?e ?s then _ else _] => destruct (includes e s)
  | H : context [if includes ?e ?s then _ else _] |- _ => destruct (includes e s)
  end.

Ltac settle :=
  unfold_handlers; unfold_sdk;
  unfold mbind, mret, Async_bind, Async_ret in *;
  cbn in *; simplify_eq;
  repeat (ask_env; cbn in *; simplify_eq).

(** C5: with no session, [login] only logs the diagnostic: the component
    state, the chain and the trace of SDK calls are what they were, so no
    provider is produced. *)
Theorem login_without_session_is_noop (env : Env) (st : AppState) (w : World) :
  web3auth st = None →
  run (login env) (st, w) =
    (Fulfilled (), (st, logged w (console_log_entry [VStr "web3auth not initialized yet"]))).
Proof.
  intros Hnone. unfold run, login. cbn. rewrite Hnone. reflexivity.
Qed.

Lemma login_without_session_is_noop_witness :
  web3auth initialState = None ∧
  run (login calm) (initialState, emptyWorld) =
    (Fulfilled (),
     (initialState,
      logged emptyWorld (console_log_entry [VStr "web3auth not initialized yet"]))).
Proof.
  split; [reflexivity | apply (login_without_session_is_noop calm); reflexivity].
Defined.

Lemma deployContract_guard (env : Env) (st : AppState) (w : World) :
  provider st = None →
  run (deployContract env) (st, w) =
    (Fulfilled (), (st, logged w (console_log_entry [VStr "provider not initialized yet"]))).
Proof.
  intros Hnone. unfold run, deployContract. cbn. rewrite Hnone. reflexivity.
Qed.

(** C6: with no connected provider, [deployContract] only logs the
    diagnostic: the component state (in particular the stored contract),
    the chain and the trace of SDK calls are what they were. *)
Theorem deployContract_without_provider_is_noop (env : Env) (st : AppState) (w : World) :
  provider st = None →
  run (deployContract env) (st, w) =
    (Fulfilled (), (st, logged w (console_log_entry [VStr "provider not initialized yet"]))).
Proof.
  apply deployContract_guard.
Qed.

Lemma deployContract_without_provider_is_noop_witness :
  provider initialState = None ∧
  run (deployContract calm) (initialState, emptyWorld) =
    (Fulfilled (),
     (initialState,
      logged emptyWorld (console_log_entry [VStr "provider not initialized yet"]))).
Proof.
  split; [reflexivity | apply (deployContract_without_provider_is_noop calm); reflexivity].
Defined.

(** C7: with no deployed contract, [readContract] and [writeContract] only
    log the diagnostic: the component state (so the displayed message and
    the pending input), the chain and the trace of SDK calls are what they
    were, so no transaction is sent. *)
Theorem contract_io_without_contract_is_noop (env : Env) (st : AppState) (w : World) :
  contract st = None →
  run (readContract env) (st, w) =
    (Fulfilled (), (st, logged w (console_log_entry [VStr "Contract not deployed yet"])))
  ∧ run (writeContract env) (st, w) =
    (Fulfilled (), (st, logged w (console_log_entry [VStr "Contract not deployed yet"]))).
Proof.
  intros Hnone. unfold run, readContract, writeContract. cbn. rewrite Hnone. done.
Qed.

Lemma contract_io_without_contract_is_noop_witness :
  contract typedEarly = None ∧
  run (readContract calm) (typedEarly, emptyWorld) =
    (Fulfilled (),
     (typedEarly, logged emptyWorld (console_log_entry [VStr "Contract not deployed yet"])))
  ∧ run (writeContract calm) (typedEarly, emptyWorld) =
    (Fulfilled (),
     (typedEarly, logged emptyWorld (console_log_entry [VStr "Contract not deployed yet"]))).
Proof.
  split; [reflexivity | apply (contract_io_without_contract_is_noop calm); reflexivity].
Defined.

(** C9: with a session, [getUserInfo] asks the SDK for the profile and
    leaves every cell of the component state, and the chain, alone,
    whatever the SDK answers; when the SDK answers, the profile is what
    is logged. *)
Theorem getUserInfo_frame (env : Env) (st : AppState) (w : World) (s : Web3AuthNoModal) :
  web3auth st = Some s →
  let r := run (getUserInfo env) (st, w) in
  r.2.1 = st
  ∧ chain r.2.2 = chain w
  ∧ calls r.2.2 = calls w ++ [web3auth_getUserInfo]
  ∧ (rejects env web3auth_getUserInfo = None →
     r = (Fulfilled (),
          (st, {| chain := chain w; calls := calls w ++ [web3auth_getUserInfo];
                  console := console w ++ [console_log_entry [VUser (user env)]] |}))).
Proof.
  intros Hsome. unfold run, getUserInfo. cbn. rewrite Hsome.
  unfold_sdk. cbn. destruct (rejects env web3auth_getUserInfo); cbn; done.
Qed.

Lemma getUserInfo_frame_witness :
  ∃ s, web3auth readyConfig.1 = Some s
       ∧ (run (getUserInfo calm) readyConfig).2.1 = readyConfig.1
       ∧ console (run (getUserInfo calm) readyConfig).2.2 =
           console readyConfig.2 ++ [console_log_entry [VUser (user calm)]].
Proof.
  eexists. split; [reflexivity |].
  destruct (getUserInfo_frame calm readyConfig.1 readyConfig.2 _ eq_refl)
    as (Hst & _ & _ & Hlog).
  split; [exact Hst |].
  change (readyConfig.1, readyConfig.2) with readyConfig in Hlog.
  rewrite (Hlog eq_refl). reflexivity.
Defined.



(** C4: with a session, a [logout] that completes clears the provider and
    nothing else, so the session is preserved and a state obtained by
    [login] from a provider-less state is returned to that state; on the
    state after logout [deployContract] is the same no-op as on any
    pre-login state: it only logs the diagnostic. *)
Theorem logout_returns_to_pre_login
    (env : Env) (st : AppState) (w : World) (s : Web3AuthNoModal) :
  web3auth st = Some s →
  (run (logout env) (st, w)).1 = Fulfilled () →
  let σ' := handle env Click_logout (st, w) in
  σ'.1 = {| web3auth := Some s; provider := None; contract := contract st;
            message := message st; newMessage := newMessage st |}
  ∧ (∀ envL st0 w0,
       provider st0 = None → (handle envL Click_login (st0, w0)).1 = st → σ'.1 = st0)
  ∧ (∀ env' w',
       run (deployContract env') (σ'.1, w') =
         (Fulfilled (),
          (σ'.1, logged w' (console_log_entry [VStr "provider not initialized yet"]))))
  ∧ (∀ env' w' st0,
       provider st0 = None →
       (run (deployContract env') (σ'.1, w')).1 = (run (deployContract env') (st0, w')).1
       ∧ (run (deployContract env') (σ'.1, w')).2.2 = (run (deployContract env') (st0, w')).2.2).
Proof.
  intros Hs Hdone σ'.
  assert (Hσ' : σ'.1 = {| web3auth := Some s; provider := None; contract := contract st;
                          message := message st; newMessage := newMessage st |}).
  { subst σ'. destruct st as [wa pr co me nm]. cbn in Hs. subst wa. settle. reflexivity. }
  split; [exact Hσ' |].
  assert (Hnone : provider σ'.1 = None) by (rewrite Hσ'; reflexivity).
  split; [| split].
  - intros envL [wa0 pr0 co0 me0 nm0] w0 Hpr0 Hlogin. cbn in Hpr0. subst pr0.
    rewrite Hσ'. subst st. destruct wa0; settle; reflexivity.
  - intros env' w'. by apply deployContract_guard.
  - intros env' w' st0 Hst0.
    rewrite !deployContract_guard by done. done.
Qed.

Lemma logout_returns_to_pre_login_witness :
  ∃ s, web3auth deployedConfig.1 = Some s
       ∧ (run (logout calm) deployedConfig).1 = Fulfilled ()
       ∧ provider (handle calm Click_logout deployedConfig).1 = None
       ∧ web3auth (handle calm Click_logout deployedConfig).1 = Some s.
Proof.
  eexists. split; [reflexivity |]. split; [reflexivity |].
  pose proof (logout_returns_to_pre_login calm deployedConfig.1 deployedConfig.2 _
                eq_refl eq_refl) as [H _].
  change (deployedConfig.1, deployedConfig.2) with deployedConfig in H.
  rewrite H. split; reflexivity.
Defined.

(** [logout] writes the provider cell only, whatever the SDK answers. *)
Lemma logout_frame (env : Env) (σ : Config) :
  let σ' := handle env Click_logout σ in
  web3auth σ'.1 = web3auth σ.1 ∧ contract σ'.1 = contract σ.1
  ∧ message σ'.1 = message σ.1 ∧ newMessage σ'.1 = newMessage σ.1
  ∧ chain σ'.2 = chain σ.2.
Proof.
  destruct σ as [[wa pr co me nm] w]. destruct wa; settle; done.
Qed.

(** What a successful deployment leaves behind. *)
Lemma deployContract_stores (env : Env) (st : AppState) (w : World)
    (p : BrowserProvider) (c : Contract) :
  provider st = Some p →
  (deployment env p (st, w)).1 = Fulfilled c →
  let σ' := handle env Click_deployContract (st, w) in
  σ'.1 = {| web3auth := web3auth st; provider := Some p; contract := Some c;
            message := message st; newMessage := newMessage st |}
  ∧ chain σ'.2 = <[target c := "Hello World!"]> (chain w)
  ∧ deploymentTransaction c = creation (target c) "Hello World!".
Proof.
  destruct st as [wa pr co me nm]. cbn. intros -> Hdep.
  settle; done.
Qed.

(** C10: [logout] leaves the stored contract, the displayed message and
    the pending input (and the session and the chain) as they were.  So
    after a deployment that succeeded and a logout, the contract is still
    stored although the provider is gone; [readContract] and
    [writeContract] get past their guard and address that contract: the
    read asks it for its message and displays the answer, the write sends
    it the pending input, which it stores once the write completes. *)
Theorem logout_keeps_stale_contract
    (envD envL : Env) (st : AppState) (w : World) (p : BrowserProvider) (c : Contract) :
  provider st = Some p →
  is_Some (web3auth st) →
  (deployment envD p (st, w)).1 = Fulfilled c →
  let σ1 := handle envD Click_deployContract (st, w) in
  (run (logout envL) σ1).1 = Fulfilled () →
  let σ2 := handle envL Click_logout σ1 in
  (web3auth σ2.1 = web3auth σ1.1 ∧ contract σ2.1 = contract σ1.1
   ∧ message σ2.1 = message σ1.1 ∧ newMessage σ2.1 = newMessage σ1.1
   ∧ chain σ2.2 = chain σ1.2)
  ∧ provider σ2.1 = None
  ∧ contract σ2.1 = Some c
  ∧ ∀ env',
      let r := run (readContract env') σ2 in
      let r' := run (writeContract env') σ2 in
      calls r.2.2 = calls σ2.2 ++ [contract_message (target c)]
      ∧ (r.1 = Fulfilled () → message r.2.1 = "Hello World!")
      ∧ (∃ rest, calls r'.2.2 =
                   calls σ2.2 ++ contract_update (target c) (newMessage σ2.1) :: rest)
      ∧ (r'.1 = Fulfilled () → chain r'.2.2 !! target c = Some (newMessage σ2.1)).
Proof.
  intros Hp [s Hs] Hdep σ1 Hout σ2.
  pose proof (logout_frame envL σ1) as Hframe. fold σ2 in Hframe.
  destruct (deployContract_stores envD st w p c Hp Hdep) as (Hst1 & Hch1 & _).
  fold σ1 in Hst1, Hch1.
  assert (Hc : contract σ2.1 = Some c).
  { destruct Hframe as (_ & -> & _). by rewrite Hst1. }
  assert (Hch : chain σ2.2 !! target c = Some "Hello World!").
  { destruct Hframe as (_ & _ & _ & _ & ->). rewrite Hch1. apply lookup_insert_eq. }
  assert (Hpr : provider σ2.1 = None).
  { destruct σ1 as [st1 w1]. cbn in Hst1. subst st1. subst σ2.
    rewrite Hs in *. settle. reflexivity. }
  split; [exact Hframe |]. split; [exact Hpr |]. split; [exact Hc |].
  intros env'. destruct σ2 as [[wa2 pr2 co2 me2 nm2] w2]. cbn in Hc, Hch. subst co2.
  cbn zeta. settle; rewrite ?Hch; cbn; repeat split; try done.
  all: try (rewrite <- ?app_assoc; eexists; reflexivity).
  all: intros _; by rewrite lookup_alter_eq, Hch.
Qed.

Lemma logout_keeps_stale_contract_witness :
  provider connectedConfig.1 = Some {| eip1193 := 1 |}
  ∧ is_Some (web3auth connectedConfig.1)
  ∧ provider (handle calm Click_logout deployedConfig).1 = None
  ∧ is_Some (contract (handle calm Click_logout deployedConfig).1).
Proof.
  split; [reflexivity |]. split; [eexists; reflexivity |].
  pose proof (logout_keeps_stale_contract calm calm connectedConfig.1 connectedConfig.2
    {| eip1193 := 1 |}
    {| target := 0; runner := {| signerProvider := {| eip1193 := 1 |} |};
       deploymentTransaction := creation 0 "Hello World!" |}
    eq_refl (ex_intro _ _ eq_refl) eq_refl eq_refl) as (_ & Hpr & Hc & _).
  split; [exact Hpr | eexists; exact Hc].
Defined.

(** ** The handle invariants *)

Lemma mount_sessionInv (env : Env) (w : World) : sessionInv (mount env w).1.
Proof.
  unfold mount, sessionInv, providerNeedsSession, contractNeedsSession.
  settle; split; intros [? ?]; done.
Qed.

(** Which cells a handler may write, and when. *)
Lemma handle_footprint (env : Env) (ev : Event) (σ : Config) :
  let σ' := handle env ev σ in
  web3auth σ'.1 = web3auth σ.1
  ∧ (provider σ'.1 = provider σ.1
     ∨ (ev = Click_login ∧ is_Some (web3auth σ.1) ∧ is_Some (provider σ'.1))
     ∨ (ev = Click_logout ∧ provider σ'.1 = None))
  ∧ (contract σ'.1 = contract σ.1
     ∨ (ev = Click_deployContract ∧ is_Some (provider σ.1) ∧ is_Some (contract σ'.1)
        ∧ provider σ'.1 = provider σ.1)).
Proof.
  destruct σ as [[wa pr co me nm] w].
  destruct ev;
    [ destruct wa | destruct wa | destruct wa | destruct pr
    | destruct pr | destruct co | destruct co | ];
    settle; eauto 10.
Qed.

Lemma handle_sessionInv (env : Env) (ev : Event) (σ : Config) :
  sessionInv σ.1 → sessionInv (handle env ev σ).1.
Proof.
  unfold sessionInv, providerNeedsSession, contractNeedsSession.
  destruct (handle_footprint env ev σ) as (-> & Hp & Hc). intros [Ip Ic].
  split.
  - destruct Hp as [-> | [(_ & Hs & _) | (_ & ->)]]; [done | done |].
    by intros [? ?].
  - destruct Hc as [-> | (_ & Hs & _)]; [done |]. auto.
Qed.

Lemma handle_handlesInv (env : Env) (ev : Event) (σ : Config) :
  ev ≠ Click_logout → handlesInv σ.1 → handlesInv (handle env ev σ).1.
Proof.
  unfold handlesInv, providerNeedsSession, contractNeedsProvider.
  destruct (handle_footprint env ev σ) as (-> & Hp & Hc). intros Hev [Ip Ic].
  split.
  - destruct Hp as [-> | [(_ & Hs & _) | (? & _)]]; done.
  - destruct Hc as [-> | (_ & Hs & _ & ->)]; [| done].
    destruct Hp as [-> | [(_ & _ & Hs) | (? & _)]]; done.
Qed.

Lemma reachable_sessionInv (σ : Config) : reachable σ → sessionInv σ.1.
Proof.
  intros (env & w & Hsteps). revert σ Hsteps.
  apply (rtc_ind_r (λ σ, sessionInv σ.1) (mount env w)).
  - apply mount_sessionInv.
  - intros σ1 σ2 _ Hstep IH. destruct Hstep. by apply handle_sessionInv.
Qed.

(** C1, as the code has it: in every reachable state a provider is stored
    only with a session, and a contract is stored only with a session;
    every operation preserves this from any state.  Every operation other
    than [logout] also preserves "a contract is stored only with a
    provider". *)
Theorem handles_need_session :
  (∀ σ, reachable σ → providerNeedsSession σ.1 ∧ contractNeedsSession σ.1)
  ∧ (∀ env ev σ, sessionInv σ.1 → sessionInv (handle env ev σ).1)
  ∧ (∀ env ev σ, ev ≠ Click_logout → handlesInv σ.1 → handlesInv (handle env ev σ).1).
Proof.
  split; [exact reachable_sessionInv |].
  split; [exact handle_sessionInv | exact handle_handlesInv].
Qed.

Lemma reachable_deployedConfig : reachable deployedConfig.
Proof.
  exists calm, emptyWorld.
  eapply rtc_r; [eapply rtc_r; [apply rtc_refl |] |].
  - exact (step_event calm Click_login readyConfig eq_refl).
  - exact (step_event calm Click_deployContract connectedConfig eq_refl).
Qed.

Lemma handles_need_session_witness :
  sessionInv (handle calm Click_logout deployedConfig).1.
Proof.
  apply (proj1 (proj2 handles_need_session) calm Click_logout deployedConfig).
  apply (proj1 handles_need_session deployedConfig).
  exists calm, emptyWorld.
  eapply rtc_r; [eapply rtc_r; [apply rtc_refl |] |].
  - exact (step_event calm Click_login readyConfig eq_refl).
  - exact (step_event calm Click_deployContract connectedConfig eq_refl).
Defined.

(** C1, as stated, fails: after login and a successful deployment the
    invariant holds and the Logout button is rendered; clicking it leads to
    a reachable state that stores a contract and no provider. *)
Lemma logout_breaks_handlesInv :
  reachable deployedConfig
  ∧ handlesInv deployedConfig.1
  ∧ rendered deployedConfig.1 Click_logout = true
  ∧ reachable (handle calm Click_logout deployedConfig)
  ∧ ¬ handlesInv (handle calm Click_logout deployedConfig).1.
Proof.
  split; [exact reachable_deployedConfig |].
  split; [split; intros _; eexists; reflexivity |].
  split; [reflexivity |].
  split.
  - destruct reachable_deployedConfig as (env & w & Hsteps).
    exists env, w. eapply rtc_r; [exact Hsteps |].
    exact (step_event calm Click_logout deployedConfig eq_refl).
  - intros [_ Hc]. destruct Hc as [p Hp]; [eexists; reflexivity |].
    vm_compute in Hp. discriminate Hp.
Qed.

(** ** What the stored contract holds on the chain *)

(** Handlers other than [writeContract] and [deployContract] neither
    replace the stored contract nor send it anything. *)
Lemma handle_contractStores (env : Env) (ev : Event) (X : string) (σ : Config) :
  ev ≠ Click_writeContract → ev ≠ Click_deployContract →
  contractStores X σ → contractStores X (handle env ev σ).
Proof.
  destruct σ as [[wa pr co me nm] w]. intros Hw Hd (c & Hc & Hchain).
  cbn in Hc. subst co. exists c.
  destruct ev; [destruct wa | destruct wa | destruct wa | done | destruct pr | | done |];
    settle; (split; [done | intros v Hv; apply Hchain; congruence]).
Qed.

(** A deployment stores a fresh contract holding the constructor argument,
    or fails and stores nothing. *)
Lemma deployContract_contractStores (env : Env) (σ : Config) :
  contractStores "Hello World!" σ →
  contractStores "Hello World!" (handle env Click_deployContract σ).
Proof.
  destruct σ as [[wa pr co me nm] w]. intros (c & Hc & Hchain).
  cbn in Hc. subst co.
  unfold contractStores.
  destruct pr; settle.
  all: eexists; (split; [reflexivity |]); cbn.
  all: first [exact Hchain | intros v; rewrite lookup_insert_eq; congruence].
Qed.

Lemma handleAll_contractStores (P : Event → Prop) (X : string)
    (evs : list (Env * Event)) (σ : Config) :
  (∀ env ev σ, P ev → contractStores X σ → contractStores X (handle env ev σ)) →
  Forall (λ ev, P ev.2) evs →
  contractStores X σ → contractStores X (handleAll evs σ).
Proof.
  intros Hkeep Hevs. revert σ.
  induction Hevs as [| [env ev] evs Hev _ IH]; intros σ Hσ; [exact Hσ |].
  cbn. apply IH. by apply Hkeep.
Qed.

(** A read that completes displays what the stored contract holds. *)
Lemma readContract_displays (env : Env) (X : string) (σ : Config) :
  contractStores X σ →
  (run (readContract env) σ).1 = Fulfilled () →
  (∃ c, contract σ.1 = Some c ∧ (contract_message_call env c σ).1 = Fulfilled X)
  ∧ message (run (readContract env) σ).2.1 = X.
Proof.
  destruct σ as [[wa pr co me nm] w]. intros (c & Hc & Hchain) Hdone.
  cbn in Hc. subst co. cbn in Hchain.
  destruct (chain w !! target c) as [v |] eqn:Hv.
  - rewrite (Hchain v eq_refl) in *. clear Hchain.
    split; [exists c; split; [done |] |]; settle; done.
  - settle.
Qed.

(** A write that completes leaves the pending input in the contract. *)
Lemma writeContract_stores (env : Env) (st : AppState) (w : World) (c : Contract) :
  contract st = Some c →
  (run (writeContract env) (st, w)).1 = Fulfilled () →
  contractStores (newMessage st) (handle env Click_writeContract (st, w)).
Proof.
  destruct st as [wa pr co me nm]. cbn. intros -> Hdone. exists c.
  settle. split; [done |]. cbn. intros v. rewrite lookup_alter_eq.
  destruct (chain w !! target c); cbn; congruence.
Qed.

(** C2: when [writeContract] runs with a contract stored and [X] pending
    and completes, then after any further handler runs other than writes
    and deployments, a [readContract] that completes displays [X]: the
    contract holds the value written last. *)
Theorem read_after_write
    (envW : Env) (st : AppState) (w : World) (c : Contract) (X : string) :
  contract st = Some c →
  newMessage st = X →
  (run (writeContract envW) (st, w)).1 = Fulfilled () →
  ∀ (evs : list (Env * Event)) (envR : Env),
    Forall (λ ev, ev.2 ≠ Click_writeContract ∧ ev.2 ≠ Click_deployContract) evs →
    let σ := handleAll evs (handle envW Click_writeContract (st, w)) in
    (run (readContract envR) σ).1 = Fulfilled () →
    message (run (readContract envR) σ).2.1 = X.
Proof.
  intros Hc <- Hwritten evs envR Hevs σ Hread.
  apply readContract_displays; [| exact Hread].
  apply (handleAll_contractStores
           (λ ev, ev ≠ Click_writeContract ∧ ev ≠ Click_deployContract)).
  - intros env ev σ0 [Hw Hd]. by apply handle_contractStores.
  - exact Hevs.
  - by eapply writeContract_stores.
Qed.

(** C3: when the deployment in [deployContract] succeeds, then after any
    further handler runs other than writes, a [readContract] that
    completes gets the constructor argument "Hello World!" from the stored
    contract and displays it. *)
Theorem read_after_deploy
    (envD : Env) (st : AppState) (w : World) (p : BrowserProvider) (c : Contract) :
  provider st = Some p →
  (deployment envD p (st, w)).1 = Fulfilled c →
  ∀ (evs : list (Env * Event)) (envR : Env),
    Forall (λ ev, ev.2 ≠ Click_writeContract) evs →
    let σ := handleAll evs (handle envD Click_deployContract (st, w)) in
    (run (readContract envR) σ).1 = Fulfilled () →
    (∃ c', contract σ.1 = Some c'
           ∧ (contract_message_call envR c' σ).1 = Fulfilled "Hello World!")
    ∧ message (run (readContract envR) σ).2.1 = "Hello World!".
Proof.
  intros Hp Hdep evs envR Hevs σ Hread.
  apply readContract_displays; [| exact Hread].
  apply (handleAll_contractStores (λ ev, ev ≠ Click_writeContract)).
  - intros env ev σ0 Hw Hσ0.
    destruct (decide (ev = Click_deployContract)) as [-> | Hd].
    + by apply deployContract_contractStores.
    + by apply handle_contractStores.
  - exact Hevs.
  - destruct (deployContract_stores envD st w p c Hp Hdep) as (Hst & Hchain & _).
    exists c. rewrite Hst, Hchain. split; [done |].
    intros v. rewrite lookup_insert_eq. congruence.
Qed.

Lemma read_after_write_witness :
  contract typedConfig.1 = Some firstContract
  ∧ newMessage typedConfig.1 = "gm"
  ∧ message (run (readContract calm)
               (handleAll [(calm, Click_logout); (calm, Click_login)]
                  (handle calm Click_writeContract typedConfig))).2.1 = "gm".
Proof.
  split; [reflexivity |]. split; [reflexivity |].
  apply (read_after_write calm typedConfig.1 typedConfig.2 firstContract "gm"
           eq_refl eq_refl eq_refl [(calm, Click_logout); (calm, Click_login)] calm).
  - constructor; [split; discriminate |]. constructor; [split; discriminate |]. constructor.
  - reflexivity.
Defined.

Lemma read_after_deploy_witness :
  provider connectedConfig.1 = Some {| eip1193 := 1 |}
  ∧ message (run (readContract calm)
               (handleAll [(calm, Click_logout); (broke, Click_deployContract)]
                  (handle calm Click_deployContract connectedConfig))).2.1
    = "Hello World!".
Proof.
  split; [reflexivity |].
  apply (read_after_deploy calm connectedConfig.1 connectedConfig.2 {| eip1193 := 1 |}
           firstContract eq_refl eq_refl
           [(calm, Click_logout); (broke, Click_deployContract)] calm).
  - constructor; [discriminate |]. constructor; [discriminate |]. constructor.
  - reflexivity.
Defined.

(** ** A late failure in [deployContract] *)

(** X13: [setContract] comes before [contract.getAddress()]: when only that
    last call rejects, the deployment has succeeded, the error is caught
    and logged all the same, and the new contract is stored. *)
Lemma deployContract_getAddress_error_stores
    (env : Env) (st : AppState) (w : World) (p : BrowserProvider) (c : Contract)
    (e : string) :
  provider st = Some p →
  (deployment env p (st, w)).1 = Fulfilled c →
  rejects env (contract_getAddress (target c)) = Some e →
  let r := run (deployContract env) (st, w) in
  r.1 = Fulfilled ()
  ∧ contract r.2.1 = Some c
  ∧ console_error_entry [VStr "Error deploying contract:"; VStr e] ∈ console r.2.2.
Proof.
  destruct st as [wa pr co me nm]. cbn. intros -> Hdep Hrej.
  settle; repeat split; set_solver.
Qed.

(** ** The start-up effect *)

(** X1: [setWeb3auth] comes before [await web3auth.init()].  When the
    constructors and [configureAdapter] go through, the effect's promise
    fulfils and the session is stored with the configured client id, chain
    and network and exactly one adapter, whether [init()] then fulfils or
    rejects; a rejection is reported with [console.error] and nothing else
    is logged. *)
Theorem init_stores_session_before_init (env : Env) (w : World) :
  (construction env (initialState, w)).1 = Fulfilled () →
  let r := init env (initialState, w) in
  r.1 = Fulfilled ()
  ∧ (∃ s a cfg, web3auth r.2.1 = Some s
            ∧ w3aClientId s = clientId ∧ w3aChainConfig s = chainConfig
            ∧ web3AuthNetwork s = "sapphire_devnet"
            ∧ adapters s = [a] ∧ uxMode a = "popup"
            ∧ loginConfig a = [("jwt", cfg)] ∧ verifier cfg = "app-test")
  ∧ provider r.2.1 = None ∧ contract r.2.1 = None
  ∧ chain r.2.2 = chain w
  ∧ console r.2.2 =
      console w ++ match rejects env web3auth_init with
                   | Some e => [console_error_entry [VError e]]
                   | None => []
                   end.
Proof.
  intros Hbuilt. unfold construction in Hbuilt.
  settle; rewrite ?app_nil_r; repeat split; try done.
  all: by do 3 eexists.
Qed.

Lemma init_stores_session_before_init_witness :
  (construction (rejecting is_web3auth_init "network down") (initialState, emptyWorld)).1
    = Fulfilled ()
  ∧ is_Some (web3auth (mount (rejecting is_web3auth_init "network down") emptyWorld).1)
  ∧ console (mount (rejecting is_web3auth_init "network down") emptyWorld).2 =
      [console_error_entry [VError "network down"]].
Proof.
  split; [reflexivity |].
  destruct (init_stores_session_before_init
              (rejecting is_web3auth_init "network down") emptyWorld eq_refl)
    as (_ & (s & _ & _ & Hs & _) & _ & _ & _ & Hlog).
  split; [eexists; exact Hs | exact Hlog].
Defined.

(** X2: when a constructor or [configureAdapter] throws, the [catch]
    reports it with [console.error], the effect's promise still fulfils,
    the component stays in its initial state (no session), and
    [web3auth.init()] is never called. *)
Theorem init_construction_error (env : Env) (w : World) (e : string) :
  (construction env (initialState, w)).1 = Rejected e →
  let r := init env (initialState, w) in
  r.1 = Fulfilled ()
  ∧ r.2.1 = initialState
  ∧ chain r.2.2 = chain w
  ∧ console r.2.2 = console w ++ [console_error_entry [VError e]]
  ∧ ∃ sent, calls r.2.2 = calls w ++ sent ∧ web3auth_init ∉ sent.
Proof.
  intros Hthrown. unfold construction in Hthrown.
  settle; repeat split; try done.
  all: rewrite <- ?app_assoc; eexists; (split; [reflexivity |]); cbn.
  all: rewrite ?not_elem_of_cons; repeat split; try done; apply not_elem_of_nil.
Qed.

Lemma init_construction_error_witness :
  (construction (rejecting is_new_OpenloginAdapter "bad settings") (initialState, emptyWorld)).1
    = Rejected "bad settings"
  ∧ (mount (rejecting is_new_OpenloginAdapter "bad settings") emptyWorld).1 = initialState.
Proof.
  split; [reflexivity |].
  exact (proj1 (proj2 (init_construction_error
                         (rejecting is_new_OpenloginAdapter "bad settings")
                         emptyWorld "bad settings" eq_refl))).
Defined.

(** ** Guards and rejections, for all handlers at once *)

(** X3: a handler whose guard fails only logs one diagnostic line with
    [console.log]: its promise fulfils, and the component state, the chain
    and the trace of SDK calls are unchanged. *)
Theorem failed_guard_is_noop (env : Env) (ev : Event) (st : AppState) (w : World) :
  guardPasses st ev = false →
  ∃ diagnostic,
    run (handler env ev) (st, w) =
      (Fulfilled (), (st, logged w (console_log_entry [VStr diagnostic]))).
Proof.
  destruct st as [wa pr co me nm].
  destruct ev; cbn; intros Hguard; try done.
  all: apply bool_decide_eq_false in Hguard.
  all: match type of Hguard with
       | ¬ is_Some ?x => destruct x; [exfalso; apply Hguard; by eexists |]
       end.
  all: eexists; reflexivity.
Qed.

Lemma failed_guard_is_noop_witness :
  guardPasses initialState Click_checkBalance = false
  ∧ ∃ diagnostic,
      run (handler calm Click_checkBalance) (initialState, emptyWorld) =
        (Fulfilled (),
         (initialState, logged emptyWorld (console_log_entry [VStr diagnostic]))).
Proof.
  split; [reflexivity |].
  exact (failed_guard_is_noop calm Click_checkBalance initialState emptyWorld eq_refl).
Defined.



(** X5: [deployContract] and [checkBalance] wrap all their awaits in
    [try]/[catch] and the [catch] only logs: whatever the SDK answers and
    whatever the state, their promise fulfils. *)
Theorem caught_handlers_always_fulfil (env : Env) (σ : Config) :
  (run (deployContract env) σ).1 = Fulfilled ()
  ∧ (run (checkBalance env) σ).1 = Fulfilled ().
Proof.
  destruct σ as [[wa pr co me nm] w].
  split; destruct pr; settle; done.
Qed.

(** X6: [checkBalance] only observes: whatever the SDK answers, the five
    state cells and the chain are unchanged and none of the calls it makes
    sends a transaction. *)
Theorem checkBalance_observes_only (env : Env) (σ : Config) :
  let σ' := handle env Click_checkBalance σ in
  σ'.1 = σ.1
  ∧ chain σ'.2 = chain σ.2
  ∧ ∃ sent, calls σ'.2 = calls σ.2 ++ sent
            ∧ Forall (λ c, isTransaction c = false) sent
            ∧ (length sent ≤ 4)%nat.
Proof.
  destruct σ as [[wa pr co me nm] w].
  destruct pr; settle; repeat split; try done.
  all: rewrite <- ?app_assoc.
  all: first [ eexists; (split; [reflexivity |]); cbn; split; [repeat constructor | lia]
             | exists []; rewrite app_nil_r; repeat split; [constructor | cbn; lia] ].
Qed.



(** ** Contract I/O *)

(** X8: a [writeContract] that completes has sent exactly one
    [update(newMessage)] to the stored contract and awaited it, has logged
    "Message updated" and cleared the pending input; it does not refresh
    the displayed message, which keeps its old value until the next read. *)
Theorem writeContract_effect (env : Env) (st : AppState) (w : World) (c : Contract) :
  contract st = Some c →
  (run (writeContract env) (st, w)).1 = Fulfilled () →
  let σ' := handle env Click_writeContract (st, w) in
  σ'.1 = {| web3auth := web3auth st; provider := provider st; contract := Some c;
            message := message st; newMessage := "" |}
  ∧ chain σ'.2 = alter (λ _, newMessage st) (target c) (chain w)
  ∧ calls σ'.2 = calls w ++ [contract_update (target c) (newMessage st);
                              tx_wait (update_call (target c) (newMessage st))]
  ∧ console σ'.2 = console w ++ [console_log_entry [VStr "Message updated"]].
Proof.
  destruct st as [wa pr co me nm]. cbn. intros -> Hdone.
  settle. rewrite <- ?app_assoc. done.
Qed.

Lemma writeContract_effect_witness :
  contract typedConfig.1 = Some firstContract
  ∧ (run (writeContract calm) typedConfig).1 = Fulfilled ()
  ∧ newMessage (handle calm Click_writeContract typedConfig).1 = ""
  ∧ message (handle calm Click_writeContract typedConfig).1 = message typedConfig.1
  ∧ chain (handle calm Click_writeContract typedConfig).2 !! 0%N = Some "gm".
Proof.
  split; [reflexivity |]. split; [reflexivity |].
  destruct (writeContract_effect calm typedConfig.1 typedConfig.2 firstContract
              eq_refl eq_refl) as (Hst & Hchain & _).
  change (typedConfig.1, typedConfig.2) with typedConfig in Hst, Hchain.
  rewrite Hst, Hchain. repeat split; reflexivity.
Defined.

(** X9: [readContract] is a pure read: whatever the SDK answers it sends no
    transaction, leaves the chain and every cell but the displayed message
    alone, and a second read right after a first one that completed
    displays the same message when it completes. *)
Theorem readContract_pure (env env' : Env) (σ : Config) :
  let σ1 := handle env Click_readContract σ in
  let σ2 := handle env' Click_readContract σ1 in
  (web3auth σ1.1 = web3auth σ.1 ∧ provider σ1.1 = provider σ.1
   ∧ contract σ1.1 = contract σ.1 ∧ newMessage σ1.1 = newMessage σ.1)
  ∧ chain σ1.2 = chain σ.2
  ∧ (∃ sent, calls σ1.2 = calls σ.2 ++ sent ∧ Forall (λ c, isTransaction c = false) sent)
  ∧ (is_Some (contract σ.1) →
     (run (readContract env) σ).1 = Fulfilled () →
     (run (readContract env') σ1).1 = Fulfilled () →
     message σ2.1 = message σ1.1).
Proof.
  destruct σ as [[wa pr co me nm] w].
  destruct co as [c |]; cbn zeta.
  - split; [| split; [| split]].
    + settle; done.
    + settle; done.
    + settle; eexists; (split; [reflexivity | repeat constructor]).
    + intros _ H1 H2. settle; done.
  - split; [done |]. split; [done |]. split.
    + exists []. split; [by rewrite app_nil_r | constructor].
    + by intros [? ?].
Qed.

Lemma readContract_pure_witness :
  is_Some (contract deployedConfig.1)
  ∧ message (handle calm Click_readContract
               (handle calm Click_readContract deployedConfig)).1
    = message (handle calm Click_readContract deployedConfig).1.
Proof.
  split; [eexists; reflexivity |].
  refine (proj2 (proj2 (proj2 (readContract_pure calm calm deployedConfig))) _ _ _).
  - eexists; reflexivity.
  - reflexivity.
  - reflexivity.
Defined.

(** ** What the rendering and the handlers guarantee together *)

(** X10: in a reachable state every rendered control except Login finds
    the handle its handler tests: the diagnostics of [getUserInfo],
    [logout], [deployContract], [checkBalance], [readContract] and
    [writeContract] cannot be produced through the user interface. *)
Theorem rendered_controls_pass_guard (σ : Config) (ev : Event) :
  reachable σ →
  rendered σ.1 ev = true →
  ev ≠ Click_login →
  guardPasses σ.1 ev = true.
Proof.
  intros Hreach Hshown Hev.
  destruct (reachable_sessionInv σ Hreach) as [Hsession _].
  unfold providerNeedsSession in Hsession.
  destruct σ as [[wa pr co me nm] w]. unfold rendered in Hshown. cbn in *.
  destruct pr as [p |]; [| by destruct ev].
  destruct ev; cbn; try done.
  all: apply bool_decide_eq_true; eauto.
Qed.

Lemma rendered_controls_pass_guard_witness :
  rendered deployedConfig.1 Click_writeContract = true
  ∧ guardPasses deployedConfig.1 Click_writeContract = true.
Proof.
  split; [reflexivity |].
  apply (rendered_controls_pass_guard deployedConfig Click_writeContract).
  - exists calm, emptyWorld.
    eapply rtc_r; [eapply rtc_r; [apply rtc_refl |] |].
    + exact (step_event calm Click_login readyConfig eq_refl).
    + exact (step_event calm Click_deployContract connectedConfig eq_refl).
  - reflexivity.
  - discriminate.
Defined.

(** X11: no handler calls [setWeb3auth], and [setContract] is only ever
    called with a deployed contract: over any sequence of handler runs the
    session cell keeps its value and a stored contract stays stored. *)
Theorem session_and_contract_persist (evs : list (Env * Event)) (σ : Config) :
  web3auth (handleAll evs σ).1 = web3auth σ.1
  ∧ (is_Some (contract σ.1) → is_Some (contract (handleAll evs σ).1)).
Proof.
  revert σ. induction evs as [| [env ev] evs IH]; intros σ; [done |].
  change (handleAll ((env, ev) :: evs) σ) with (handleAll evs (handle env ev σ)).
  destruct (IH (handle env ev σ)) as [IHs IHc].
  destruct (handle_footprint env ev σ) as (Hs & _ & Hc).
  split; [by rewrite IHs |].
  intros Hco. apply IHc. destruct Hc as [-> | (_ & _ & Hnew & _)]; done.
Qed.

Lemma contractHasCode_mount (env : Env) (w : World) : contractHasCode (mount env w).
Proof.
  unfold contractHasCode, mount. intros c. settle; done.
Qed.

Lemma contractHasCode_handle (env : Env) (ev : Event) (σ : Config) :
  contractHasCode σ → contractHasCode (handle env ev σ).
Proof.
  destruct σ as [[wa pr co me nm] w]. unfold contractHasCode. cbn. intros Hcode.
  destruct ev;
    [ destruct wa | destruct wa | destruct wa | destruct pr
    | destruct pr | destruct co | destruct co | ];
    settle; intros c' Hc'; simplify_eq; eauto.
  all: try (rewrite lookup_insert_eq; by eexists).
  all: try (rewrite lookup_alter_eq; destruct (Hcode c' eq_refl) as [v ->]; by eexists).
  all: try (by destruct (Hcode c' eq_refl) as [v Hv]; simplify_eq).
Qed.

(** X12: the contract reference is stored only after its deployment has
    been confirmed and nothing removes code from the chain.  So in every
    reachable state the stored contract has code at its address, and a
    [readContract] whose [message()] call the SDK does not reject
    completes. *)
Theorem reachable_contract_has_code (σ : Config) (c : Contract) :
  reachable σ →
  contract σ.1 = Some c →
  is_Some (chain σ.2 !! target c)
  ∧ ∀ env, rejects env (contract_message (target c)) = None →
           (run (readContract env) σ).1 = Fulfilled ().
Proof.
  intros (env0 & w0 & Hsteps) Hc.
  assert (Hcode : contractHasCode σ).
  { clear Hc. revert σ Hsteps. apply (rtc_ind_r (λ σ, contractHasCode σ)).
    - apply contractHasCode_mount.
    - intros σ1 σ2 _ Hstep IH. destruct Hstep. by apply contractHasCode_handle. }
  destruct (Hcode c Hc) as [v Hv]. split; [by eexists |].
  intros env Hok. destruct σ as [[wa pr co me nm] w]. cbn in *. subst co.
  settle. done.
Qed.

Lemma session_and_contract_persist_witness :
  is_Some (contract deployedConfig.1)
  ∧ is_Some (contract (handleAll [(calm, Click_logout); (broke, Click_login);
                                  (broke, Click_deployContract)] deployedConfig).1).
Proof.
  split; [eexists; reflexivity |].
  apply (proj2 (session_and_contract_persist
                  [(calm, Click_logout); (broke, Click_login); (broke, Click_deployContract)]
                  deployedConfig)).
  eexists; reflexivity.
Defined.

Lemma reachable_contract_has_code_witness :
  contract deployedConfig.1 = Some firstContract
  ∧ (run (readContract calm) deployedConfig).1 = Fulfilled ().
Proof.
  split; [reflexivity |].
  refine (proj2 (reachable_contract_has_code deployedConfig firstContract _ eq_refl)
            calm eq_refl).
  exists calm, emptyWorld.
  eapply rtc_r; [eapply rtc_r; [apply rtc_refl |] |].
  - exact (step_event calm Click_login readyConfig eq_refl).
  - exact (step_event calm Click_deployContract connectedConfig eq_refl).
Defined.

Lemma deployContract_getAddress_error_stores_witness :
  provider connectedConfig.1 = Some {| eip1193 := 1 |}
  ∧ (deployment (rejecting is_getAddress "no resolver") {| eip1193 := 1 |}
       connectedConfig).1 = Fulfilled firstContract
  ∧ contract (handle (rejecting is_getAddress "no resolver") Click_deployContract
                connectedConfig).1 = Some firstContract.
Proof.
  split; [reflexivity |]. split; [reflexivity |].
  exact (proj1 (proj2 (deployContract_getAddress_error_stores
                         (rejecting is_getAddress "no resolver")
                         connectedConfig.1 connectedConfig.2 {| eip1193 := 1 |}
                         firstContract "no resolver" eq_refl eq_refl eq_refl))).
Defined.

(** X14: what the user types is what is written: after [onChange] with
    [X], a [writeContract] that completes and a [readContract] that
    completes, the displayed message is [X] and the input is empty. *)
Theorem typed_text_round_trip
    (envC envW envR : Env) (st : AppState) (w : World) (c : Contract) (X : string) :
  contract st = Some c →
  let σ1 := handle envC (Change X) (st, w) in
  (run (writeContract envW) σ1).1 = Fulfilled () →
  let σ2 := handle envW Click_writeContract σ1 in
  (run (readContract envR) σ2).1 = Fulfilled () →
  let σ3 := handle envR Click_readContract σ2 in
  message σ3.1 = X ∧ newMessage σ3.1 = "".
Proof.
  destruct st as [wa pr co me nm]. cbn. intros -> Hwritten Hread.
  settle. rewrite lookup_alter_eq in *.
  destruct (chain w !! target c); cbn in *; by simplify_eq.
Qed.

Lemma typed_text_round_trip_witness :
  contract deployedConfig.1 = Some firstContract
  ∧ message (handle calm Click_readContract
               (handle calm Click_writeContract
                  (handle calm (Change "gm") deployedConfig))).1 = "gm".
Proof.
  split; [reflexivity |].
  exact (proj1 (typed_text_round_trip calm calm calm deployedConfig.1 deployedConfig.2
                  firstContract "gm" eq_refl eq_refl eq_refl)).
Defined.

(** X15: a logout followed by a login that both complete change the
    provider cell only: the contract deployed before the logout is still
    stored, bound to the signer it was deployed with, and the controls to
    read and write it are rendered again. *)
Theorem relogin_keeps_contract
    (envO envI : Env) (st : AppState) (w : World) (c : Contract) :
  is_Some (web3auth st) →
  contract st = Some c →
  (run (logout envO) (st, w)).1 = Fulfilled () →
  let σ1 := handle envO Click_logout (st, w) in
  (run (login envI) σ1).1 = Fulfilled () →
  let σ2 := handle envI Click_login σ1 in
  σ2.1 = {| web3auth := web3auth st;
            provider := Some {| eip1193 := web3authProvider envI |};
            contract := Some c; message := message st; newMessage := newMessage st |}
  ∧ chain σ2.2 = chain w
  ∧ rendered σ1.1 Click_readContract = false
  ∧ rendered σ2.1 Click_readContract = true
  ∧ rendered σ2.1 Click_writeContract = true.
Proof.
  destruct st as [wa pr co me nm]. cbn. intros [s ->] -> Hout Hin.
  settle. done.
Qed.

Lemma relogin_keeps_contract_witness :
  is_Some (web3auth deployedConfig.1)
  ∧ contract deployedConfig.1 = Some firstContract
  ∧ contract (handle calm Click_login (handle calm Click_logout deployedConfig)).1
    = Some firstContract.
Proof.
  split; [eexists; reflexivity |]. split; [reflexivity |].
  destruct (relogin_keeps_contract calm calm deployedConfig.1 deployedConfig.2 firstContract
              (ex_intro _ _ eq_refl) eq_refl eq_refl eq_refl) as [Hst _].
  change (deployedConfig.1, deployedConfig.2) with deployedConfig in Hst.
  rewrite Hst. reflexivity.
Defined.

(** X16: [deployContract] does not look at the contract cell: with a
    contract already stored, a deployment that succeeds sends another
    creation, stores a contract at a different address in place of the old
    reference, and leaves what the old contract holds on the chain. *)
Theorem redeploy_replaces_reference
    (env : Env) (st : AppState) (w : World) (p : BrowserProvider) (c0 c : Contract)
    (v : string) :
  provider st = Some p →
  contract st = Some c0 →
  chain w !! target c0 = Some v →
  (deployment env p (st, w)).1 = Fulfilled c →
  let σ' := handle env Click_deployContract (st, w) in
  contract σ'.1 = Some c
  ∧ target c ≠ target c0
  ∧ chain σ'.2 !! target c0 = Some v
  ∧ chain σ'.2 !! target c = Some "Hello World!"
  ∧ ∃ sent, calls σ'.2 = calls w ++ sent ∧ factory_deploy "Hello World!" ∈ sent.
Proof.
  destruct st as [wa pr co me nm]. cbn. intros -> -> Hv Hdep.
  assert (Hfresh : fresh (dom (chain w)) ≠ target c0).
  { intros Heq. apply (is_fresh (dom (chain w))). rewrite Heq.
    apply elem_of_dom. by eexists. }
  settle; repeat split; try done.
  all: rewrite ?lookup_insert_eq, ?lookup_insert_ne by done; try done.
  all: rewrite <- ?app_assoc; eexists; (split; [reflexivity |]); cbn.
  all: rewrite !elem_of_cons; auto.
Qed.

Lemma redeploy_replaces_reference_witness :
  provider deployedConfig.1 = Some {| eip1193 := 1 |}
  ∧ contract deployedConfig.1 = Some firstContract
  ∧ chain deployedConfig.2 !! target firstContract = Some "Hello World!"
  ∧ ∃ c, contract (handle calm Click_deployContract deployedConfig).1 = Some c
         ∧ target c ≠ target firstContract.
Proof.
  split; [reflexivity |]. split; [reflexivity |]. split; [reflexivity |].
  eexists.
  destruct (redeploy_replaces_reference calm deployedConfig.1 deployedConfig.2
              {| eip1193 := 1 |} firstContract _ "Hello World!"
              eq_refl eq_refl eq_refl eq_refl) as (Hc & Hne & _).
  split; [exact Hc | exact Hne].
Defined.

(** ** The hint after a failed deployment *)

Lemma substring_prefix (t s : string) :
  String.substring 0 (String.length t) s = t → ∃ post, s = (t +:+ post)%string.
Proof.
  revert s. induction t as [| a t IH]; intros s Hsub; [by exists s |].
  destruct s as [| b s]; [discriminate |]. cbn in Hsub.
  injection Hsub as -> Hrest. destruct (IH s Hrest) as [post ->]. by exists post.
Qed.

Lemma substring_occursIn (sub s : string) (m : nat) :
  sub ≠ "" → String.substring m (String.length sub) s = sub → occursIn sub s.
Proof.
  intros Hne. revert m. induction s as [| b s IH]; intros m Hsub.
  - destruct m, sub; cbn in Hsub; done.
  - destruct m as [| m].
    + destruct (substring_prefix sub (String b s) Hsub) as [post Hpost].
      exists "", post. by rewrite Hpost.
    + cbn in Hsub. destruct (IH m Hsub) as (pre & post & ->).
      by exists (String b pre), post.
Qed.

Lemma substring_of_append (pre sub post : string) :
  String.substring (String.length pre) (String.length sub) (pre +:+ sub +:+ post) = sub.
Proof.
  induction pre as [| a pre IH]; [| exact IH].
  change (String.substring 0 (String.length sub) (sub +:+ post) = sub).
  induction sub as [| a sub IH].
  - by destruct post.
  - simpl. f_equal. exact IH.
Qed.

(** [includes] decides occurrence as a substring. *)
Lemma includes_occursIn (s sub : string) : includes s sub = true ↔ occursIn sub s.
Proof.
  unfold includes. rewrite bool_decide_eq_true. split.
  - intros [m Hm]. destruct (decide (sub = "")) as [-> | Hne].
    + by exists "", s.
    + apply String.index_correct1 in Hm. by eapply substring_occursIn.
  - intros (pre & post & ->).
    destruct (String.index 0 sub (pre +:+ sub +:+ post)) as [m |] eqn:Hidx; [by eexists |].
    exfalso. destruct (decide (sub = "")) as [-> | Hne].
    + apply String.index_correct4 in Hidx. lia.
    + eapply (String.index_correct3 0 (String.length pre)); [exact Hidx | exact Hne | lia |].
      apply substring_of_append.
Qed.

Lemma deployContract_error_console
    (env : Env) (st : AppState) (w : World) (p : BrowserProvider) (e : string) :
  provider st = Some p →
  (deployment env p (st, w)).1 = Rejected e →
  console (handle env Click_deployContract (st, w)).2 =
    console w ++
    console_error_entry [VStr "Error deploying contract:"; VStr e] ::
    (if includes e "insufficient funds"
     then [console_log_entry
             [VStr "Please make sure you have enough test ETH in your wallet."]]
     else []).
Proof.
  destruct st as [wa pr co me nm]. cbn. intros -> Hfail.
  settle.
  all: destruct (includes e "insufficient funds"); cbn.
  all: by rewrite <- ?app_assoc.
Qed.

(** X17: when the deployment raises an error, the lines [deployContract]
    adds to the console contain the hint about test ETH exactly when
    "insufficient funds" occurs, in this spelling and case, somewhere in
    the error message. *)
Theorem deployContract_hint_iff
    (env : Env) (st : AppState) (w : World) (p : BrowserProvider) (e : string) :
  provider st = Some p →
  (deployment env p (st, w)).1 = Rejected e →
  ∃ added,
    console (handle env Click_deployContract (st, w)).2 = console w ++ added
    ∧ (console_log_entry [VStr "Please make sure you have enough test ETH in your wallet."]
         ∈ added
       ↔ occursIn "insufficient funds" e).
Proof.
  intros Hp Hfail.
  eexists. split; [exact (deployContract_error_console env st w p e Hp Hfail) |].
  destruct (includes_occursIn e "insufficient funds") as [Hto Hfrom].
  destruct (includes e "insufficient funds") eqn:Hinc.
  - split; [intros _; by apply Hto |].
    intros _. apply elem_of_cons. right. apply elem_of_cons. by left.
  - split; [| intros Hocc; apply Hfrom in Hocc; discriminate Hocc].
    intros Hin. apply elem_of_cons in Hin as [Hin | Hin]; [discriminate Hin |].
    by apply elem_of_nil in Hin.
Qed.

Lemma deployContract_hint_iff_witness :
  provider connectedConfig.1 = Some {| eip1193 := 1 |}
  ∧ (deployment broke {| eip1193 := 1 |} connectedConfig).1 =
      Rejected "insufficient funds for intrinsic transaction cost"
  ∧ occursIn "insufficient funds" "insufficient funds for intrinsic transaction cost"
  ∧ ∃ added,
      console (handle broke Click_deployContract connectedConfig).2 =
        console connectedConfig.2 ++ added
      ∧ console_log_entry
          [VStr "Please make sure you have enough test ETH in your wallet."] ∈ added.
Proof.
  split; [reflexivity |]. split; [reflexivity |].
  assert (Hocc : occursIn "insufficient funds"
                   "insufficient funds for intrinsic transaction cost")
    by (by exists "", " for intrinsic transaction cost").
  split; [exact Hocc |].
  destruct (deployContract_hint_iff broke connectedConfig.1 connectedConfig.2
              {| eip1193 := 1 |} "insufficient funds for intrinsic transaction cost"
              eq_refl eq_refl) as (added & Hcons & Hiff).
  exists added. split; [exact Hcons | by apply Hiff].
Defined.

(** ** A failed start-up *)

(** X18: nothing retries the start-up effect.  When it failed before
    [setWeb3auth], every state the user can reach is the initial state:
    only the Login button is rendered, and clicking it produces the
    diagnostic and no call to the SDK. *)
Theorem startup_failure_is_permanent (env : Env) (w : World) (e : string) (σ : Config) :
  (construction env (initialState, w)).1 = Rejected e →
  rtc step (mount env w) σ →
  σ.1 = initialState
  ∧ (∀ ev, rendered σ.1 ev = true → ev = Click_login)
  ∧ (∀ env', run (login env') σ =
               (Fulfilled (),
                (σ.1, logged σ.2 (console_log_entry [VStr "web3auth not initialized yet"])))).
Proof.
  intros Hthrown Hsteps.
  assert (Hinit : σ.1 = initialState).
  { revert σ Hsteps. apply (rtc_ind_r (λ σ, σ.1 = initialState)).
    - unfold mount. unfold construction in Hthrown. settle; done.
    - intros σ1 σ2 _ Hstep IH. destruct Hstep as [env1 ev [st1 w1] Hshown].
      cbn in IH, Hshown. subst st1. by destruct ev. }
  split; [exact Hinit |]. destruct σ as [st1 w1]. cbn in Hinit. subst st1.
  split; [by intros [] | done].
Qed.

Lemma startup_failure_is_permanent_witness :
  (construction (rejecting is_new_OpenloginAdapter "bad settings") (initialState, emptyWorld)).1
    = Rejected "bad settings"
  ∧ (handle calm Click_login
       (mount (rejecting is_new_OpenloginAdapter "bad settings") emptyWorld)).1 = initialState.
Proof.
  split; [reflexivity |].
  refine (proj1 (startup_failure_is_permanent
                   (rejecting is_new_OpenloginAdapter "bad settings") emptyWorld
                   "bad settings" _ eq_refl _)).
  eapply rtc_r; [apply rtc_refl |].
  exact (step_event calm Click_login
           (mount (rejecting is_new_OpenloginAdapter "bad settings") emptyWorld) eq_refl).
Defined.
